(** * The base uncertainty model of greykite

    A shallow embedding of
    [greykite/sklearn/uncertainty/base_uncertainty_model.py]: the class
    [BaseUncertaintyModel] with its constructor and its three methods
    [_check_input], [fit] and [predict].

    A Python instance is its attribute dictionary; a method is a function
    from the instance it is called on to an outcome (a returned value or a
    raised exception) and the instance afterwards. *)

From Stdlib Require Import ZArith.
From stdpp Require Import base strings gmap list.

Open Scope string_scope.

(** ** Python values *)

(** A [pandas.DataFrame] as far as this class looks at it: column labels
    and rows of cells. *)
Record DataFrame := mkDataFrame {
  columns : list string;
  rows : list (list Z)
}.

(** [DataFrame.empty]: some axis has length zero. *)
Definition df_empty (df : DataFrame) : bool :=
  match columns df, rows df with
  | [], _ | _, [] => true
  | _, _ => false
  end.

(** [all(c in df.columns for c in required)]. *)
Definition df_has_columns (required : list string) (df : DataFrame) : bool :=
  forallb (λ c, bool_decide (c ∈ columns df)) required.

#[local] Set Warnings "-register-all,-clear-no-such-hyp".

(** The values the attributes of an instance hold.  A [dict] keeps its
    items in insertion order. *)
Inductive pyval :=
  | PyNone
  | PyBool (b : bool)
  | PyInt (z : Z)
  | PyStr (s : string)
  | PyDict (items : list (string * pyval))
  | PyFrame (df : DataFrame).

(** [v is None]. *)
Definition is_None (v : pyval) : bool :=
  match v with PyNone => true | _ => false end.

(** ** Exceptions and outcomes *)

(** [AttributeError] is what reading an unbound attribute, or writing one
    that is not writable, raises.  [TypeError] is what a call raises whose
    arguments do not bind to the signature, what calling a value raises
    that is not callable, and what assigning a value of the wrong type to
    [__class__] or [__dict__] raises.  [UncertaintyError] is the error kind the docstring of [_check_input]
    names (declared in [greykite.sklearn.uncertainty.exceptions]); no
    statement of the base class raises it. *)
Inductive exn :=
  | AttributeError (name : string)
  | TypeError (msg : string)
  | UncertaintyError (msg : string).

Inductive outcome (A : Type) :=
  | Returned (a : A)
  | Raised (e : exn).
Arguments Returned {A} a.
Arguments Raised {A} e.

Definition raises {A} (o : outcome A) : bool :=
  match o with Returned _ => false | Raised _ => true end.

(** ** Instances and methods *)

(** The [__dict__] of an instance: attribute name to value. *)
Abbreviation instance := (gmap string pyval).

(** A method body: runs on [self], ends in an outcome, leaves [self]
    possibly changed.  What a body did before raising stays done. *)
Definition method (A : Type) : Type := instance → outcome A * instance.

(** [return a]. *)
#[global] Instance method_ret : MRet method :=
  λ A a self, (Returned a, self).

(** Sequencing: an exception ends the body where it is raised. *)
#[global] Instance method_bind : MBind method :=
  λ A B k m self,
    match m self with
    | (Returned a, self') => k a self'
    | (Raised e, self') => (Raised e, self')
    end.

(** [raise e]. *)
Definition raise {A} (e : exn) : method A := λ self, (Raised e, self).

(** The attributes that [object] manages itself for an instance of a class
    without slots: assigning to them does not bind a name in [__dict__]. *)
Definition special_names : list string :=
  ["__class__"; "__dict__"; "__weakref__"].

(** The attribute dictionary a [dict] with string keys makes: of two
    items with one key the later one counts. *)
Definition attrs_of_dict (items : list (string * pyval)) : instance :=
  foldl (λ attrs kv, <[kv.1 := kv.2]> attrs) ∅ items.

(** [self.name], for the ordinary names the bodies of the class read: the
    attribute dictionary is looked up, and a name that is not bound
    raises. *)
Definition getattr (name : string) : method pyval :=
  λ self,
    match self !! name with
    | Some v => (Returned v, self)
    | None => (Raised (AttributeError name), self)
    end.

(** [self.name = v], also [setattr(self, name, v)].  The class has
    neither slots nor properties, so the assignment binds the name in
    [__dict__], but for the three names of [special_names]: [__class__]
    takes a class only, and no value of [pyval] is one; [__weakref__] is
    not writable; [__dict__] takes a dictionary only, which then is the
    attribute dictionary of the instance. *)
Definition setattr (name : string) (v : pyval) : method unit :=
  λ self,
    if decide (name = "__class__")
    then (Raised (TypeError "__class__ must be set to a class"), self)
    else if decide (name = "__weakref__")
    then (Raised (AttributeError "__weakref__"), self)
    else if decide (name = "__dict__")
    then match v with
         | PyDict items => (Returned tt, attrs_of_dict items)
         | _ =>
             (Raised (TypeError "__dict__ must be set to a dictionary"), self)
         end
    else (Returned tt, <[name := v]> self).

(** [for x in l: body(x)]. *)
Fixpoint for_each {A} (l : list A) (body : A → method unit) : method unit :=
  match l with
  | [] => mret tt
  | x :: l' => body x;; for_each l' body
  end.

(** The state a method leaves and the outcome it ends in. *)
Definition state_after {A} (m : method A) (self : instance) : instance :=
  (m self).2.
Definition outcome_of {A} (m : method A) (self : instance) : outcome A :=
  (m self).1.

(** ** The class BaseUncertaintyModel *)

Module BaseUncertaintyModel.

(** The keyword arguments of a call, in the order they were written. *)
Abbreviation kwargs_t := (list (string * pyval)).

(** The parameters of [__init__] that have a name of their own (lines
    56-57): a keyword argument with such a name gives the parameter a
    second value. *)
Definition parameter_names : list string := ["self"; "uncertainty_dict"].

(** [__init__(self, uncertainty_dict, **kwargs)], lines 55-70.  The call
    binds its arguments to the signature before the body runs, and raises
    [TypeError] when a keyword argument has the name of a parameter. *)
Definition __init__ (uncertainty_dict : pyval) (kwargs : kwargs_t)
    : method pyval :=
  if bool_decide (Exists (λ kv, kv.1 ∈ parameter_names) kwargs)
  then raise (TypeError "got multiple values for argument")
  else
  setattr "uncertainty_dict" uncertainty_dict;;
  for_each kwargs (λ kv, setattr kv.1 kv.2);;
  setattr "uncertainty_method" PyNone;;
  setattr "params" PyNone;;
  setattr "train_df" PyNone;;
  setattr "uncertainty_model" PyNone;;
  setattr "pred_df" PyNone;;
  mret PyNone.

(** [_check_input(self)], lines 72-82.  [abstractmethod] has no effect on
    a class whose metaclass is not [ABCMeta]: the body runs as written. *)
Definition _check_input : method pyval :=
  uncertainty_dict ← getattr "uncertainty_dict";
  if is_None uncertainty_dict
  then setattr "uncertainty_dict" (PyDict []);; mret PyNone
  else mret PyNone.

(** [fit(self, train_df)], lines 84-94.  The annotation [pd.DataFrame] is
    not enforced: the argument is any value. *)
Definition fit (train_df : pyval) : method pyval :=
  setattr "train_df" train_df;;
  mret PyNone.

(** [predict(self, fut_df)], lines 96-106: the body is [pass]. *)
Definition predict (fut_df : pyval) : method pyval :=
  mret PyNone.

(** Keyword arguments the call accepts and the loop assigns as
    attributes: none has the name of a parameter or of an attribute that
    [object] manages itself. *)
Definition plain (kwargs : kwargs_t) : Prop :=
  Forall (λ kv, kv.1 ∉ (parameter_names ++ special_names)%list) kwargs.

(** The attributes [__init__] sets to [None] after the keyword arguments
    (lines 64-70): four "set by fit", one "set by predict". *)
Definition reset_names : list string :=
  ["uncertainty_method"; "params"; "train_df"; "uncertainty_model"; "pred_df"].

(** [kwargs[key]] as the loop of [__init__] sees it: of two items with
    one key the later one is assigned last. *)
Fixpoint kwargs_get (kwargs : kwargs_t) (key : string) : option pyval :=
  match kwargs with
  | [] => None
  | kv :: rest =>
      match kwargs_get rest key with
      | Some v => Some v
      | None => if decide (kv.1 = key) then Some kv.2 else None
      end
  end.

(** [BaseUncertaintyModel(uncertainty_dict, **kwargs)]: [__init__] runs on
    a new object, whose [__dict__] is empty. *)
Definition new (uncertainty_dict : pyval) (kwargs : kwargs_t) : instance :=
  state_after (__init__ uncertainty_dict kwargs) ∅.

(** The fitted state is the attribute [uncertainty_model] ("the
    uncertainty model", [None] until there is one). *)
Definition fitted (self : instance) : bool :=
  match self !! "uncertainty_model" with
  | Some v => negb (is_None v)
  | None => false
  end.

(** *** Histories of method calls on one instance *)

Inductive call :=
  | Call_check_input
  | Call_fit (train_df : pyval)
  | Call_predict (fut_df : pyval).

Definition method_names : list string := ["_check_input"; "fit"; "predict"].

(** [self.name(...)]: the name is looked up on the instance before the
    class, and the functions of a class do not override an attribute of
    the instance.  No value of [pyval] is callable, so an attribute with
    the name of a method makes the call fail. *)
Definition call_method (name : string) (body : method pyval) : method pyval :=
  λ self,
    match self !! name with
    | Some _ => (Raised (TypeError "object is not callable"), self)
    | None => body self
    end.

Definition invoke (c : call) : method pyval :=
  match c with
  | Call_check_input => call_method "_check_input" _check_input
  | Call_fit train_df => call_method "fit" (fit train_df)
  | Call_predict fut_df => call_method "predict" (predict fut_df)
  end.

(** An instance as the constructor leaves it and the methods keep it: the
    configuration is bound and no attribute hides a method. *)
Definition usable (self : instance) : Prop :=
  is_Some (self !! "uncertainty_dict")
  ∧ Forall (λ name, self !! name = None) method_names.

Definition is_fit (c : call) : bool :=
  match c with Call_fit _ => true | _ => false end.

(** The calls one after the other; the first exception ends the run. *)
Definition run (calls : list call) : method unit :=
  for_each calls (λ c, invoke c;; mret tt).

End BaseUncertaintyModel.

Import BaseUncertaintyModel.

(** ** Frames used in the examples *)

(** The three training rows and the one future row of the worked example:
    time, actual value, point forecast. *)
Definition train1 : DataFrame :=
  mkDataFrame ["ts"; "actual"; "forecast"]
    [[1; 10; 9]; [2; 11; 10]; [3; 9; 10]]%Z.

Definition future1 : DataFrame :=
  mkDataFrame ["ts"; "forecast"] [[4; 12]]%Z.

Definition no_frame : DataFrame := mkDataFrame [] [].


(** Keyword arguments as a caller may write them: one new attribute and
    one with the name of a field the constructor resets. *)
Definition kwargs1 : kwargs_t :=
  [("coverage", PyInt 95); ("train_df", PyFrame train1)].

(** A configuration of the documented shape: a method name and its
    parameters. *)
Definition config1 : pyval :=
  PyDict [("uncertainty_method", PyStr "simple_conditional_residuals");
          ("params", PyDict [("coverage", PyInt 95)])].

(** What a strategy may keep as its fitted model (here the extreme
    residuals of [train1]) and a prediction stored by an earlier call. *)
Definition model1 : pyval :=
  PyDict [("residual_min", PyInt (-1)); ("residual_max", PyInt 1)].

Definition old_pred : DataFrame :=
  mkDataFrame ["ts"; "forecast"; "lower"; "upper"] [[9; 20; 19; 21]]%Z.

(** An instance a strategy has fitted and predicted with once: [fit] was
    called, the fitted model and a prediction are stored. *)
Definition fitted1 : instance :=
  state_after
    (fit (PyFrame train1);;
     setattr "uncertainty_model" model1;;
     setattr "pred_df" (PyFrame old_pred))
    (new config1 []).

(** ** The sequence the specification gives fit *)

(** Store the frame, validate, then run the strategy's own fitting
    algorithm.  This follows the words of the specification, not the
    source; it is here to be compared with [fit]. *)
Definition fit_as_specified (strategy_fit : method pyval) (train_df : pyval)
    : method pyval :=
  setattr "train_df" train_df;;
  _check_input;;
  strategy_fit.

(** ** What a history leaves behind *)

(** The frame of a [fit] call. *)
Definition fit_arg (c : call) : option pyval :=
  match c with Call_fit train_df => Some train_df | _ => None end.

Definition is_check_input (c : call) : bool :=
  match c with Call_check_input => true | _ => false end.

(** The frame of the last [fit] call of a history, [None] when there is
    none. *)
Definition last_fit (calls : list call) : pyval :=
  default PyNone (last (omap fit_arg calls)).

(** The configuration after a history: the empty mapping when it was
    [None] and the input check was called, else as it was given. *)
Definition checked_config (calls : list call) (uncertainty_dict : pyval)
    : pyval :=
  if is_None uncertainty_dict && existsb is_check_input calls
  then PyDict []
  else uncertainty_dict.

(** ** The tutorial for monthly data *)

(** [docs/nbpages/tutorials/0400_monthly_data.py] is a script over the
    forecasting framework; the part of it that is code of its own is the
    loop that lines up the train and test metrics of a backtest, lines
    181-184 (again at 271-274 and 364-367):
<<
    backtest_eval = defaultdict(list)
    for metric, value in backtest.train_evaluation.items():
        backtest_eval[metric].append(value)
        backtest_eval[metric].append(backtest.test_evaluation[metric])
>>
    [train_evaluation] and [test_evaluation] are the dicts of metric
    values of the backtest.  The loop does not look at the values, so
    their type is left open. *)
Module MonthlyData.
Section BacktestEval.
Context {V : Type}.

(** [backtest_eval[metric].append(v)] on a [defaultdict(list)]: a key
    that is missing is bound to the empty list first. *)
Definition append_to (metric : string) (v : V)
    (backtest_eval : gmap string (list V)) : gmap string (list V) :=
  <[metric := (default [] (backtest_eval !! metric) ++ [v])%list]>
    backtest_eval.

(** How the loop ends: at its end, or with the [KeyError] of
    [test_evaluation[metric]]; either way with what was collected. *)
Inductive loop_end :=
  | Completed (backtest_eval : gmap string (list V))
  | KeyError (metric : string) (backtest_eval : gmap string (list V)).

(** The loop over the items of [train_evaluation], in their order. *)
Fixpoint collect (train_items : list (string * V))
    (test_evaluation : gmap string V)
    (backtest_eval : gmap string (list V)) : loop_end :=
  match train_items with
  | [] => Completed backtest_eval
  | (metric, value) :: rest =>
      let backtest_eval := append_to metric value backtest_eval in
      match test_evaluation !! metric with
      | Some test_value =>
          collect rest test_evaluation
            (append_to metric test_value backtest_eval)
      | None => KeyError metric backtest_eval
      end
  end.

(** Lines 181-184: the loop on a new [defaultdict(list)]. *)
Definition backtest_eval_of (train_items : list (string * V))
    (test_evaluation : gmap string V) : loop_end :=
  collect train_items test_evaluation ∅.

(** The table the loop is to build, for comparison: for every metric
    that both mappings have, the train value and then the test value. *)
Definition paired (train_items : list (string * V))
    (test_evaluation : gmap string V) : gmap string (list V) :=
  map_zip_with (λ value test_value, [value; test_value])
    (list_to_map train_items) test_evaluation.

End BacktestEval.
Arguments loop_end V : clear implicits.
End MonthlyData.

Import MonthlyData.

(** Metrics of a backtest as the examples use them. *)
Definition train_metrics1 : list (string * Z) :=
  [("MAE", 3); ("RMSE", 4)]%Z.

Definition test_metrics1 : gmap string Z :=
  {["MAE" := 5; "RMSE" := 6; "R2" := 1]}%Z.

(** * Properties *)

(** ** The method monad *)

Section Monad.
Context {A B : Type}.

Lemma bind_returned (m : method A) (k : A → method B) self a self' :
  m self = (Returned a, self') → (m ≫= k) self = k a self'.
Proof. intros Hm. unfold mbind, method_bind. by rewrite Hm. Qed.

Lemma bind_raised (m : method A) (k : A → method B) self e self' :
  m self = (Raised e, self') → (m ≫= k) self = (Raised e, self').
Proof. intros Hm. unfold mbind, method_bind. by rewrite Hm. Qed.

Lemma setattr_then name v (k : method B) self :
  name ∉ special_names →
  (setattr name v;; k) self = k (<[name := v]> self).
Proof.
  intros Hname. unfold special_names in Hname.
  apply not_elem_of_cons in Hname as [Hclass Hname].
  apply not_elem_of_cons in Hname as [Hdict Hname].
  apply not_elem_of_cons in Hname as [Hweakref _].
  unfold mbind, method_bind, setattr. by rewrite !decide_False.
Qed.
End Monad.

(** The names the bodies of the class assign to are not special. *)
Ltac ordinary_name := refine (bool_decide_unpack _ _); vm_compute; exact I.

Section Plain.
Implicit Types (kwargs : kwargs_t).

Lemma plain_cons kv kwargs :
  plain (kv :: kwargs) ↔
  (kv.1 ∉ parameter_names) ∧ (kv.1 ∉ special_names) ∧ plain kwargs.
Proof.
  unfold plain. rewrite Forall_cons, not_elem_of_app. naive_solver.
Qed.

Lemma plain_binds kwargs :
  plain kwargs →
  bool_decide (Exists (λ kv, kv.1 ∈ parameter_names) kwargs) = false.
Proof.
  intros Hplain. apply bool_decide_eq_false. intros Hex.
  apply Exists_exists in Hex as (kv & Hin & Hparam).
  apply (proj1 (Forall_forall _ _) Hplain) in Hin.
  apply not_elem_of_app in Hin as [Hin _]. done.
Qed.

Lemma plain_not_configuration kwargs :
  plain kwargs → "uncertainty_dict" ∉ kwargs.*1.
Proof.
  intros Hplain Hin. apply list_elem_of_fmap in Hin as (kv & Heq & Hin).
  apply (proj1 (Forall_forall _ _) Hplain) in Hin.
  apply not_elem_of_app in Hin as [Hin _]. apply Hin.
  rewrite <- Heq. unfold parameter_names. set_solver.
Qed.

Lemma avoided_name_unbound (names : list string) kwargs key :
  Forall (λ kv, kv.1 ∉ names) kwargs → key ∈ names → key ∉ kwargs.*1.
Proof.
  intros Havoid Hkey Hin. apply list_elem_of_fmap in Hin as (kv & -> & Hin).
  by apply (proj1 (Forall_forall _ _) Havoid) in Hin.
Qed.

Lemma plain_filter (P : string * pyval → Prop) `{!∀ kv, Decision (P kv)}
    kwargs :
  plain kwargs → plain (filter P kwargs).
Proof.
  unfold plain. rewrite !Forall_forall. intros Hplain kv Hin.
  apply Hplain. by apply list_elem_of_filter in Hin as [_ Hin].
Qed.
End Plain.

(** ** Keyword arguments *)

Section Kwargs.
Implicit Types (kwargs : kwargs_t) (self : instance) (key : string).

(** The loop of [__init__] over plain keyword arguments runs to its end. *)
Lemma setattrs_returns kwargs self :
  plain kwargs →
  outcome_of (for_each kwargs (λ kv, setattr kv.1 kv.2)) self = Returned tt.
Proof.
  revert self. induction kwargs as [|kv rest IH]; intros self Hplain; [done|].
  apply plain_cons in Hplain as (_ & Hname & Hplain).
  simpl. unfold outcome_of in *. rewrite setattr_then by done. by apply IH.
Qed.

(** After the loop an attribute holds its keyword argument, if there is
    one, and what it held before otherwise. *)
Lemma setattrs_lookup kwargs self key :
  plain kwargs →
  state_after (for_each kwargs (λ kv, setattr kv.1 kv.2)) self !! key =
  match kwargs_get kwargs key with
  | Some v => Some v
  | None => self !! key
  end.
Proof.
  revert self. induction kwargs as [|kv rest IH]; intros self Hplain; [done|].
  apply plain_cons in Hplain as (_ & Hname & Hplain).
  simpl. unfold state_after in *. rewrite setattr_then, IH by done.
  destruct (kwargs_get rest key); [done|].
  rewrite lookup_insert. by repeat case_decide.
Qed.

Lemma setattrs_run kwargs self :
  plain kwargs →
  for_each kwargs (λ kv, setattr kv.1 kv.2) self =
  (Returned tt, state_after (for_each kwargs (λ kv, setattr kv.1 kv.2)) self).
Proof.
  intros Hplain. pose proof (setattrs_returns kwargs self Hplain) as H.
  unfold outcome_of, state_after in *.
  destruct (for_each _ _ _) as [o s]. simpl in *. by subst.
Qed.

Lemma kwargs_get_None kwargs key :
  key ∉ kwargs.*1 → kwargs_get kwargs key = None.
Proof.
  induction kwargs as [|kv rest IH]; [done|].
  rewrite fmap_cons, not_elem_of_cons. intros [Hne Hrest].
  simpl. rewrite (IH Hrest). by rewrite decide_False.
Qed.

(** The loop binds the keys of the keyword arguments and unbinds
    nothing. *)
Lemma setattrs_dom kwargs self :
  plain kwargs →
  dom (state_after (for_each kwargs (λ kv, setattr kv.1 kv.2)) self) =
  list_to_set kwargs.*1 ∪ dom self.
Proof.
  revert self. induction kwargs as [|kv rest IH]; intros self Hplain.
  - simpl. set_solver.
  - apply plain_cons in Hplain as (_ & Hname & Hplain).
    simpl. unfold state_after in *. rewrite setattr_then, IH by done.
    rewrite dom_insert_L. set_solver.
Qed.

Lemma kwargs_get_filter (P : string → Prop) `{!∀ k, Decision (P k)}
    kwargs key :
  P key →
  kwargs_get (filter (λ kv, P kv.1) kwargs) key = kwargs_get kwargs key.
Proof.
  intros HP. induction kwargs as [|kv rest IH]; [done|].
  rewrite filter_cons. case_decide as Hkv; simpl.
  - by rewrite IH.
  - rewrite IH. destruct (kwargs_get rest key); [done|].
    rewrite decide_False; [done|]. intros Heq. by subst key.
Qed.
End Kwargs.

(** ** The constructor *)

Section Init.
Implicit Types (kwargs : kwargs_t) (self : instance) (key : string).

(** The six assignments and the loop, written out on the state. *)
Lemma init_run uncertainty_dict kwargs self :
  plain kwargs →
  __init__ uncertainty_dict kwargs self =
  (Returned PyNone,
   <["pred_df" := PyNone]> (<["uncertainty_model" := PyNone]>
   (<["train_df" := PyNone]> (<["params" := PyNone]>
   (<["uncertainty_method" := PyNone]>
   (state_after (for_each kwargs (λ kv, setattr kv.1 kv.2))
      (<["uncertainty_dict" := uncertainty_dict]> self))))))).
Proof.
  intros Hplain. unfold __init__. rewrite (plain_binds _ Hplain).
  rewrite setattr_then by ordinary_name.
  rewrite (bind_returned _ _ _ _ _ (setattrs_run kwargs _ Hplain)).
  by rewrite !setattr_then by ordinary_name.
Qed.

Lemma init_returns uncertainty_dict kwargs self :
  plain kwargs →
  __init__ uncertainty_dict kwargs self =
  (Returned PyNone, state_after (__init__ uncertainty_dict kwargs) self).
Proof. intros Hplain. unfold state_after. by rewrite init_run. Qed.

Lemma init_lookup uncertainty_dict kwargs self key :
  plain kwargs →
  state_after (__init__ uncertainty_dict kwargs) self !! key =
  if decide (key ∈ reset_names) then Some PyNone
  else match kwargs_get kwargs key with
       | Some v => Some v
       | None =>
           if decide (key = "uncertainty_dict") then Some uncertainty_dict
           else self !! key
       end.
Proof.
  intros Hplain. unfold state_after at 1. rewrite init_run by done. simpl.
  unfold reset_names. case_decide as Hin.
  - repeat (apply elem_of_cons in Hin as [->|Hin]; [by simplify_map_eq|]).
    by apply elem_of_nil in Hin.
  - repeat (apply not_elem_of_cons in Hin as [? Hin]).
    rewrite !lookup_insert_ne by done.
    rewrite setattrs_lookup by done. destruct (kwargs_get kwargs key); [done|].
    rewrite lookup_insert. by repeat case_decide.
Qed.

Lemma init_dom uncertainty_dict kwargs self :
  plain kwargs →
  dom (state_after (__init__ uncertainty_dict kwargs) self) =
  list_to_set ("uncertainty_dict" :: reset_names ++ kwargs.*1) ∪ dom self.
Proof.
  intros Hplain. unfold state_after at 1. rewrite init_run by done. simpl.
  rewrite !dom_insert_L, setattrs_dom, dom_insert_L by done.
  unfold reset_names. set_solver.
Qed.
End Init.

(** ** The body of the input check *)

Section CheckInput.
Implicit Types (self : instance) (v : pyval).

(** The body of [_check_input], by the three cases of the attribute. *)
Lemma check_input_run self :
  _check_input self =
  match self !! "uncertainty_dict" with
  | Some v =>
      (Returned PyNone,
       if is_None v then <["uncertainty_dict" := PyDict []]> self else self)
  | None => (Raised (AttributeError "uncertainty_dict"), self)
  end.
Proof.
  unfold _check_input, mbind, method_bind, getattr.
  destruct (self !! "uncertainty_dict") as [v|]; [|done].
  by destruct v.
Qed.

(** The bodies of [fit] and [predict]. *)
Lemma fit_run train_df self :
  fit train_df self = (Returned PyNone, <["train_df" := train_df]> self).
Proof. unfold fit. by rewrite setattr_then by ordinary_name. Qed.

Lemma predict_run fut_df self : predict fut_df self = (Returned PyNone, self).
Proof. reflexivity. Qed.
End CheckInput.

(** ** Method calls on a constructed instance *)

Section Calls.
Implicit Types (self : instance) (c : call) (calls : list call).

(** On a usable instance every method returns [None] and leaves the
    instance usable. *)
Lemma invoke_returns c self :
  usable self →
  outcome_of (invoke c) self = Returned PyNone ∧
  usable (state_after (invoke c) self).
Proof.
  intros [[v Hv] Hm]. unfold usable, method_names in *.
  apply Forall_cons in Hm as [Hcheck Hm].
  apply Forall_cons in Hm as [Hfit Hm].
  apply Forall_cons in Hm as [Hpredict _].
  destruct c as [|train_df|fut_df]; simpl; unfold call_method.
  - unfold outcome_of, state_after. rewrite Hcheck, check_input_run, Hv.
    simpl. destruct (is_None v).
    + rewrite lookup_insert_eq.
      split_and!; eauto; repeat constructor; by rewrite lookup_insert_ne.
    + rewrite Hv. split_and!; eauto; by repeat constructor.
  - unfold outcome_of, state_after. rewrite Hfit, fit_run. simpl.
    rewrite lookup_insert_ne by done. rewrite Hv.
    split_and!; eauto; repeat constructor; by rewrite lookup_insert_ne.
  - unfold outcome_of, state_after, predict. rewrite Hpredict. simpl.
    rewrite Hv. split_and!; eauto; by repeat constructor.
Qed.

Lemma run_returns calls self :
  usable self → outcome_of (run calls) self = Returned tt.
Proof.
  revert self. induction calls as [|c calls IH]; intros self Hself; [done|].
  destruct (invoke_returns c self Hself) as [Hout Hnext].
  unfold run, outcome_of, state_after in *. simpl.
  destruct (invoke c self) as [o self'] eqn:Hc. simpl in *. subst o.
  unfold mbind at 1, method_bind at 1.
  rewrite (bind_returned _ _ _ _ _ Hc). simpl.
  unfold mret at 1, method_ret at 1. by apply IH.
Qed.

(** The constructor leaves a usable instance when the keyword arguments
    are plain and none has the name of a method. *)
Lemma new_usable uncertainty_dict (kwargs : kwargs_t) :
  plain kwargs →
  Forall (λ kv, kv.1 ∉ method_names) kwargs →
  new uncertainty_dict kwargs !! "uncertainty_dict" = Some uncertainty_dict
  ∧ usable (new uncertainty_dict kwargs).
Proof.
  intros Hplain Hm.
  assert (new uncertainty_dict kwargs !! "uncertainty_dict"
          = Some uncertainty_dict) as Hstored.
  { unfold new. rewrite init_lookup by done.
    case_decide as Hin; [unfold reset_names in Hin; set_solver|].
    by rewrite (kwargs_get_None _ _ (plain_not_configuration _ Hplain)). }
  split; [done|]. split; [by rewrite Hstored|].
  apply Forall_forall. intros name Hin.
  assert (name ∉ kwargs.*1) as Hname
    by (by apply (avoided_name_unbound method_names)).
  unfold new. rewrite init_lookup, (kwargs_get_None _ _ Hname) by done.
  unfold method_names, reset_names in *.
  repeat (apply elem_of_cons in Hin as [->|Hin]; [done|]).
  by apply elem_of_nil in Hin.
Qed.
End Calls.

(** ** Construction *)

(** C4: for every configuration, well formed or not, construction runs to
    its end without an error, stores the configuration as it was given,
    binds nothing but the fields it initialises (the configuration, the
    five reset fields, the keyword arguments), and as long as [fit] is not
    called no later call on the instance raises.  The hypotheses on the
    keyword arguments keep them off the names of the parameters (such a
    call raises before the body runs), off the attributes [object]
    manages itself (assigning [__class__] or [__weakref__] raises,
    assigning [__dict__] replaces the attributes, the configuration among
    them) and off the names of the methods (an attribute of that name
    hides the method). *)
Theorem construct_stores_configuration_verbatim
    (uncertainty_dict : pyval) (kwargs : kwargs_t) (calls : list call) :
  plain kwargs →
  Forall (λ kv, kv.1 ∉ method_names) kwargs →
  forallb (λ c, negb (is_fit c)) calls = true →
  (__init__ uncertainty_dict kwargs ∅ =
     (Returned PyNone, new uncertainty_dict kwargs))
  ∧ (new uncertainty_dict kwargs !! "uncertainty_dict"
     = Some uncertainty_dict)
  ∧ (dom (new uncertainty_dict kwargs) =
     list_to_set ("uncertainty_dict" :: reset_names ++ kwargs.*1))
  ∧ (outcome_of (run calls) (new uncertainty_dict kwargs) = Returned tt).
Proof.
  intros Hplain Hkw _.
  destruct (new_usable uncertainty_dict kwargs Hplain Hkw)
    as [Hstored Husable].
  split_and!.
  - by apply init_returns.
  - exact Hstored.
  - unfold new. rewrite init_dom by done. set_solver.
  - by apply run_returns.
Qed.

Lemma construct_stores_configuration_verbatim_witness :
  plain kwargs1
  ∧ Forall (λ kv, kv.1 ∉ method_names) kwargs1
  ∧ (forallb (λ c, negb (is_fit c))
       [Call_predict (PyFrame future1); Call_check_input] = true)
  ∧ (new (PyInt 7) kwargs1 !! "uncertainty_dict" = Some (PyInt 7))
  ∧ (outcome_of (run [Call_predict (PyFrame future1); Call_check_input])
       (new (PyInt 7) kwargs1) = Returned tt).
Proof.
  assert (plain kwargs1) as H0 by ordinary_name.
  assert (Forall (λ kv, kv.1 ∉ method_names) kwargs1) as H1
    by ordinary_name.
  assert (forallb (λ c, negb (is_fit c))
            [Call_predict (PyFrame future1); Call_check_input] = true) as H2
    by reflexivity.
  destruct (construct_stores_configuration_verbatim (PyInt 7) kwargs1
              [Call_predict (PyFrame future1); Call_check_input] H0 H1 H2)
    as (_ & Hstored & _ & Hrun).
  exact (conj H0 (conj H1 (conj H2 (conj Hstored Hrun)))).
Defined.

(** Keyword arguments that are not plain: a keyword with the name of a
    parameter ends the call before the body, [__class__] ends the loop,
    and [__dict__] replaces what was assigned before it, the
    configuration too, so that the input check fails later. *)
Example init_kwargs_not_plain :
  __init__ config1 [("uncertainty_dict", PyNone)] ∅
  = (Raised (TypeError "got multiple values for argument"), ∅)
  ∧ __init__ config1 [("self", PyInt 1)] ∅
    = (Raised (TypeError "got multiple values for argument"), ∅)
  ∧ __init__ config1 [("coverage", PyInt 95); ("__weakref__", PyNone)] ∅
    = (Raised (AttributeError "__weakref__"),
       {["uncertainty_dict" := config1; "coverage" := PyInt 95]})
  ∧ new config1 [("__dict__", PyDict [("a", PyInt 1)])] !! "uncertainty_dict"
    = None
  ∧ outcome_of _check_input
      (new config1 [("__dict__", PyDict [("a", PyInt 1)])])
    = Raised (AttributeError "uncertainty_dict").
Proof. split_and!; reflexivity. Qed.

(** The constructor on [kwargs1]: the new attribute is kept, the one named
    [train_df] is reset, and the instance is the one built without it. *)
Example init_kwargs1 :
  new config1 kwargs1 !! "coverage" = Some (PyInt 95)
  ∧ new config1 kwargs1 !! "train_df" = Some PyNone
  ∧ new config1 kwargs1 = new config1 [("coverage", PyInt 95)].
Proof. split_and!; reflexivity. Qed.

(** C8, as stated, fails for a keyword argument named [__class__]: the
    assignment in the loop raises [TypeError], the constructor ends there,
    and the five fields are not reset: [train_df] still holds the keyword
    argument assigned before, and [pred_df] is not bound at all. *)
Lemma init_special_keyword_stops_resets :
  (__init__ config1 [("train_df", PyFrame train1); ("__class__", PyInt 5)] ∅
   = (Raised (TypeError "__class__ must be set to a class"),
      {["uncertainty_dict" := config1; "train_df" := PyFrame train1]}))
  ∧ (state_after
       (__init__ config1
          [("train_df", PyFrame train1); ("__class__", PyInt 5)]) ∅
     !! "train_df" = Some (PyFrame train1))
  ∧ (state_after
       (__init__ config1
          [("train_df", PyFrame train1); ("__class__", PyInt 5)]) ∅
     !! "pred_df" = None).
Proof. split_and!; reflexivity. Qed.

(** C8, amended: for plain keyword arguments (none named like a parameter
    or like an attribute [object] manages itself) the constructor returns,
    every keyword argument is assigned as an attribute, and then the five
    fields of [reset_names] are set to [None] whatever was assigned: each
    of the five reads [None] on the constructed instance, any other
    attribute reads its keyword argument (else the configuration, else what
    the object held), and the keyword arguments with one of the five
    names can be left out of the call without changing the instance. *)
Theorem init_resets_after_kwargs
    (uncertainty_dict : pyval) (kwargs : kwargs_t) (self : instance)
    (key : string) :
  plain kwargs →
  (outcome_of (__init__ uncertainty_dict kwargs) self = Returned PyNone)
  ∧ Forall (λ name,
      state_after (__init__ uncertainty_dict kwargs) self !! name
      = Some PyNone) reset_names
  ∧ (state_after (__init__ uncertainty_dict kwargs) self !! key =
     if decide (key ∈ reset_names) then Some PyNone
     else match kwargs_get kwargs key with
          | Some v => Some v
          | None =>
              if decide (key = "uncertainty_dict")
              then Some uncertainty_dict
              else self !! key
          end)
  ∧ (__init__ uncertainty_dict kwargs self =
     __init__ uncertainty_dict
       (filter (λ kv, kv.1 ∉ reset_names) kwargs) self).
Proof.
  intros Hplain.
  assert (plain (filter (λ kv, kv.1 ∉ reset_names) kwargs)) as Hfilter
    by (by apply plain_filter).
  split_and!.
  - unfold outcome_of. by rewrite init_returns.
  - apply Forall_forall. intros name Hname.
    rewrite init_lookup by done. by rewrite decide_True.
  - by apply init_lookup.
  - rewrite (init_returns _ kwargs), (init_returns _ (filter _ kwargs))
      by done.
    f_equal. apply map_eq. intros k. rewrite !init_lookup by done.
    case_decide as Hk; [done|].
    pose proof (kwargs_get_filter (λ k, k ∉ reset_names) kwargs k Hk) as Hf.
    simpl in Hf. by rewrite Hf.
Qed.

Lemma init_resets_after_kwargs_witness :
  plain kwargs1
  ∧ (outcome_of (__init__ config1 kwargs1) ∅ = Returned PyNone)
  ∧ (state_after (__init__ config1 kwargs1) ∅ !! "train_df" = Some PyNone)
  ∧ (__init__ config1 kwargs1 ∅ = __init__ config1 [("coverage", PyInt 95)] ∅).
Proof.
  assert (plain kwargs1) as H0 by ordinary_name.
  destruct (init_resets_after_kwargs config1 kwargs1 ∅ "train_df" H0)
    as (Hout & _ & Hkey & Hfilter).
  exact (conj H0 (conj Hout (conj Hkey Hfilter))).
Defined.

(** ** The base input check *)

(** C7: an absent configuration is treated as empty.  When the stored
    [uncertainty_dict] is [None] the check replaces it with the empty
    mapping, and when it is anything else the check leaves it, and the
    instance, as it was; the check returns [None] either way. *)
Theorem check_input_absent_configuration_is_empty
    (self : instance) (v : pyval) :
  self !! "uncertainty_dict" = Some v →
  (_check_input self =
     (Returned PyNone,
      if is_None v then <["uncertainty_dict" := PyDict []]> self else self))
  ∧ (state_after _check_input self !! "uncertainty_dict" =
     Some (if is_None v then PyDict [] else v)).
Proof.
  intros Hv. unfold state_after. rewrite check_input_run, Hv. simpl.
  split; [done|].
  destruct (is_None v); [apply lookup_insert_eq|done].
Qed.

Lemma check_input_absent_configuration_is_empty_witness :
  (new PyNone [] !! "uncertainty_dict" = Some PyNone)
  ∧ (state_after _check_input (new PyNone []) !! "uncertainty_dict"
     = Some (PyDict []))
  ∧ (new (PyDict [("params", PyDict [])]) [] !! "uncertainty_dict"
     = Some (PyDict [("params", PyDict [])]))
  ∧ (state_after _check_input (new (PyDict [("params", PyDict [])]) [])
     = new (PyDict [("params", PyDict [])]) []).
Proof.
  assert (new PyNone [] !! "uncertainty_dict" = Some PyNone) as H1
    by reflexivity.
  assert (new (PyDict [("params", PyDict [])]) [] !! "uncertainty_dict"
          = Some (PyDict [("params", PyDict [])])) as H2 by reflexivity.
  split_and!.
  - exact H1.
  - exact (proj2 (check_input_absent_configuration_is_empty _ _ H1)).
  - exact H2.
  - exact (f_equal snd
             (proj1 (check_input_absent_configuration_is_empty _ _ H2))).
Defined.

(** C9: the base input check is idempotent (a second call ends as the
    first did and leaves the state the first left), after a call the
    stored configuration is not [None], no attribute other than
    [uncertainty_dict] is changed, and the state changes at all only when
    the configuration was [None]. *)
Theorem check_input_idempotent_and_framed (self : instance) :
  (_check_input (state_after _check_input self) = _check_input self)
  ∧ (state_after _check_input self !! "uncertainty_dict" ≠ Some PyNone)
  ∧ (delete "uncertainty_dict" (state_after _check_input self)
     = delete "uncertainty_dict" self)
  ∧ (state_after _check_input self =
     match self !! "uncertainty_dict" with
     | Some PyNone => <["uncertainty_dict" := PyDict []]> self
     | _ => self
     end).
Proof.
  unfold state_after. rewrite (check_input_run self).
  destruct (self !! "uncertainty_dict") as [v|] eqn:Hv; simpl.
  - destruct (is_None v) eqn:Hnone.
    + destruct v; try discriminate. split_and!.
      * by rewrite check_input_run, lookup_insert_eq.
      * by rewrite lookup_insert_eq.
      * by rewrite delete_insert_eq.
      * done.
    + split_and!.
      * by rewrite check_input_run, Hv, Hnone.
      * rewrite Hv. intros [= ->]. discriminate.
      * done.
      * by destruct v.
  - split_and!; [|by rewrite Hv|done|done].
    by rewrite check_input_run, Hv.
Qed.

(** ** The base fit *)

(** C10: the base [fit] changes the field [train_df], which it sets to
    the frame it is given, and nothing else: [uncertainty_dict],
    [uncertainty_method], [params], [uncertainty_model] and [pred_df] read
    after the call what they read before it, and so does every other
    attribute. *)
Theorem fit_changes_train_df_only (self : instance) (train_df : pyval) :
  (state_after (fit train_df) self = <["train_df" := train_df]> self)
  ∧ (state_after (fit train_df) self !! "train_df" = Some train_df)
  ∧ Forall (λ name, state_after (fit train_df) self !! name = self !! name)
      ["uncertainty_dict"; "uncertainty_method"; "params";
       "uncertainty_model"; "pred_df"]
  ∧ (delete "train_df" (state_after (fit train_df) self)
     = delete "train_df" self).
Proof.
  unfold state_after. rewrite fit_run. simpl. split_and!.
  - done.
  - apply lookup_insert_eq.
  - repeat constructor; by rewrite lookup_insert_ne.
  - apply delete_insert_eq.
Qed.




(** *** What the base fit does not do *)

(** C2, as stated, fails on an instance built with an absent
    configuration: [fit] returns with [uncertainty_dict] still [None],
    where the validation, had it run after the frame was stored, would
    have left the empty mapping; and no fitted model is produced. *)
Lemma fit_skips_validation_and_fitting :
  (fit (PyFrame train1) (new PyNone []) =
     (Returned PyNone, <["train_df" := PyFrame train1]> (new PyNone [])))
  ∧ (state_after (fit (PyFrame train1)) (new PyNone []) !! "uncertainty_dict"
     = Some PyNone)
  ∧ (state_after (fit_as_specified (mret PyNone) (PyFrame train1))
       (new PyNone []) !! "uncertainty_dict" = Some (PyDict []))
  ∧ (fitted (state_after (fit (PyFrame train1)) (new PyNone [])) = false)
  ∧ (fit (PyFrame train1) (new PyNone [])
     ≠ fit_as_specified (mret PyNone) (PyFrame train1) (new PyNone [])).
Proof.
  split_and!; try reflexivity.
  intros Heq.
  apply (f_equal (λ r, r.2 !! "uncertainty_dict")) in Heq.
  vm_compute in Heq. discriminate.
Qed.

(** C2, amended: for every training frame the base [fit] stores the frame
    as [train_df] and returns no value; it runs no validation (the
    configuration is left as it was) and no fitting algorithm (the fitted
    state [uncertainty_model] is left as it was, so the instance is as
    fitted after the call as before); [predict] can be called afterwards
    and returns [None]. *)
Theorem fit_stores_frame_and_returns_None
    (self : instance) (train_df fut_df : pyval) :
  (outcome_of (fit train_df) self = Returned PyNone)
  ∧ (state_after (fit train_df) self !! "train_df" = Some train_df)
  ∧ (state_after (fit train_df) self !! "uncertainty_dict"
     = self !! "uncertainty_dict")
  ∧ (state_after (fit train_df) self !! "uncertainty_model"
     = self !! "uncertainty_model")
  ∧ (fitted (state_after (fit train_df) self) = fitted self)
  ∧ (outcome_of (predict fut_df) (state_after (fit train_df) self)
     = Returned PyNone).
Proof.
  unfold fitted, state_after, outcome_of.
  rewrite fit_run. simpl. split_and!; try done.
  - apply lookup_insert_eq.
  - by rewrite lookup_insert_ne.
  - by rewrite lookup_insert_ne.
  - by rewrite lookup_insert_ne.
Qed.

(** C3, as stated, fails on the frame without columns and rows: it is
    empty and lacks the actual-value and point-forecast columns, and
    [fit] returns [None] with the frame stored instead of raising. *)
Lemma fit_accepts_empty_frame :
  (df_empty no_frame = true)
  ∧ (df_has_columns ["actual"; "forecast"] no_frame = false)
  ∧ (fit (PyFrame no_frame) (new config1 []) =
       (Returned PyNone,
        <["train_df" := PyFrame no_frame]> (new config1 [])))
  ∧ (∀ e, outcome_of (fit (PyFrame no_frame)) (new config1 []) ≠ Raised e).
Proof. split_and!; try reflexivity. intros e. discriminate. Qed.

(** C3, amended: for every training frame that is empty or lacks a
    required column the base [fit] raises nothing; it returns [None] and
    stores the frame as [train_df].  It creates no fitted model:
    [uncertainty_model] is unchanged, so the instance is fitted after the
    call exactly when it was before, and an instance that was not fitted
    stays not fitted. *)
Theorem fit_does_not_reject_bad_frame
    (required : list string) (self : instance) (df : DataFrame) :
  df_empty df = true ∨ df_has_columns required df = false →
  (outcome_of (fit (PyFrame df)) self = Returned PyNone)
  ∧ (raises (outcome_of (fit (PyFrame df)) self) = false)
  ∧ (state_after (fit (PyFrame df)) self !! "train_df" = Some (PyFrame df))
  ∧ (state_after (fit (PyFrame df)) self !! "uncertainty_model"
     = self !! "uncertainty_model")
  ∧ (fitted (state_after (fit (PyFrame df)) self) = fitted self).
Proof.
  intros _. unfold fitted, state_after, outcome_of.
  rewrite fit_run. simpl. split_and!; try done.
  - apply lookup_insert_eq.
  - by rewrite lookup_insert_ne.
  - by rewrite lookup_insert_ne.
Qed.

Lemma fit_does_not_reject_bad_frame_witness :
  (df_empty no_frame = true
   ∨ df_has_columns ["actual"; "forecast"] no_frame = false)
  ∧ (outcome_of (fit (PyFrame no_frame)) (new config1 []) = Returned PyNone)
  ∧ (fitted (state_after (fit (PyFrame no_frame)) (new config1 [])) = false).
Proof.
  assert (df_empty no_frame = true
          ∨ df_has_columns ["actual"; "forecast"] no_frame = false) as H
    by (left; reflexivity).
  destruct (fit_does_not_reject_bad_frame ["actual"; "forecast"]
              (new config1 []) no_frame H) as (Hout & _ & _ & _ & Hfit).
  split_and!; [exact H|exact Hout|].
  rewrite Hfit. reflexivity.
Defined.

(** ** The base predict *)

(** C1, as stated, fails on a newly constructed instance: [predict]
    called before any [fit] returns [None] and raises nothing. *)
Lemma predict_before_fit_returns :
  (outcome_of (predict (PyFrame future1)) (new config1 []) = Returned PyNone)
  ∧ (∀ e, outcome_of (predict (PyFrame future1)) (new config1 [])
          ≠ Raised e).
Proof. split; [reflexivity|]. intros e. discriminate. Qed.

(** C1, amended: on every instance, and so on every instance on which
    [fit] has not been called, the base [predict] with any future frame
    raises no error: it returns [None]. *)
Theorem predict_never_raises (self : instance) (fut_df : pyval) :
  (outcome_of (predict fut_df) self = Returned PyNone)
  ∧ (raises (outcome_of (predict fut_df) self) = false).
Proof. split; reflexivity. Qed.

(** C6, as stated, fails on a fitted instance: [predict] returns [None],
    which is no frame, and the prediction stored by an earlier call is
    still the stored one afterwards, although it is not the new future
    frame with columns added. *)
Lemma predict_keeps_old_prediction :
  (fitted fitted1 = true)
  ∧ (fitted1 !! "train_df" = Some (PyFrame train1))
  ∧ (outcome_of (predict (PyFrame future1)) fitted1 = Returned PyNone)
  ∧ (∀ p, outcome_of (predict (PyFrame future1)) fitted1
          ≠ Returned (PyFrame p))
  ∧ (state_after (predict (PyFrame future1)) fitted1 !! "pred_df"
     = Some (PyFrame old_pred))
  ∧ (map (take 2) (rows old_pred) ≠ rows future1).
Proof.
  split_and!; try reflexivity; discriminate.
Qed.

(** C6, amended: for every instance, fitted or not, and every future
    frame the base [predict] returns [None] and leaves the instance as it
    was; in particular [pred_df] keeps the value it had. *)
Theorem predict_returns_None_and_stores_nothing
    (self : instance) (fut_df : pyval) :
  (predict fut_df self = (Returned PyNone, self))
  ∧ (state_after (predict fut_df) self !! "pred_df" = self !! "pred_df").
Proof. split; reflexivity. Qed.

(** * Further properties *)

(** ** Histories of calls *)

Section Histories.
Implicit Types (self : instance) (c : call) (calls : list call).

Lemma run_cons c calls self :
  run (c :: calls) self =
  match invoke c self with
  | (Returned _, self') => run calls self'
  | (Raised e, self') => (Raised e, self')
  end.
Proof.
  unfold run. simpl. unfold mbind, method_bind, mret, method_ret.
  by destruct (invoke c self) as [[?|?] ?].
Qed.

(** A call, whether it returns or raises, changes no attribute but
    [train_df] and [uncertainty_dict]. *)
Lemma invoke_lookup_other c self key :
  key ≠ "train_df" → key ≠ "uncertainty_dict" →
  state_after (invoke c) self !! key = self !! key.
Proof.
  intros Htd Hud. unfold state_after.
  destruct c as [|train_df|fut_df]; simpl; unfold call_method.
  - destruct (self !! "_check_input"); [done|].
    rewrite check_input_run.
    destruct (self !! "uncertainty_dict") as [v|]; [|done].
    simpl. destruct (is_None v); [|done]. by rewrite lookup_insert_ne.
  - destruct (self !! "fit"); [done|].
    rewrite fit_run. simpl. by rewrite lookup_insert_ne.
  - by destruct (self !! "predict").
Qed.

Lemma run_lookup_other calls self key :
  key ≠ "train_df" → key ≠ "uncertainty_dict" →
  state_after (run calls) self !! key = self !! key.
Proof.
  intros Htd Hud. revert self.
  induction calls as [|c calls IH]; intros self; [done|].
  pose proof (invoke_lookup_other c self key Htd Hud) as Hc.
  unfold state_after in *. rewrite run_cons.
  destruct (invoke c self) as [[?|?] self']; simpl in *.
  - by rewrite IH.
  - done.
Qed.

(** The two attributes a call on a usable instance may change. *)
Lemma invoke_fields c self uncertainty_dict train_df :
  usable self →
  self !! "uncertainty_dict" = Some uncertainty_dict →
  self !! "train_df" = Some train_df →
  state_after (invoke c) self !! "uncertainty_dict" =
    Some (checked_config [c] uncertainty_dict)
  ∧ state_after (invoke c) self !! "train_df" =
    Some (default train_df (fit_arg c)).
Proof.
  intros [_ Hm] Hud Htd. unfold method_names in Hm.
  apply Forall_cons in Hm as [Hcheck Hm].
  apply Forall_cons in Hm as [Hfit Hm].
  apply Forall_cons in Hm as [Hpredict _].
  unfold state_after, checked_config.
  destruct c as [|df|fut_df]; simpl; unfold call_method.
  - rewrite Hcheck, check_input_run, Hud. simpl.
    destruct (is_None uncertainty_dict); simpl.
    + by rewrite lookup_insert_eq, lookup_insert_ne.
    + done.
  - rewrite Hfit, fit_run. simpl.
    rewrite lookup_insert_eq, lookup_insert_ne by done.
    by rewrite andb_false_r.
  - rewrite Hpredict. simpl. by rewrite andb_false_r.
Qed.

Lemma checked_config_cons c calls uncertainty_dict :
  checked_config calls (checked_config [c] uncertainty_dict) =
  checked_config (c :: calls) uncertainty_dict.
Proof.
  unfold checked_config. simpl.
  destruct (is_None uncertainty_dict) eqn:Hnone; simpl; [|by rewrite Hnone].
  rewrite orb_false_r. destruct (is_check_input c); simpl; [done|].
  by rewrite Hnone.
Qed.

Lemma last_fit_cons c calls train_df :
  default (default train_df (fit_arg c)) (last (omap fit_arg calls)) =
  default train_df (last (omap fit_arg (c :: calls))).
Proof.
  change (omap fit_arg (c :: calls)) with
    (match fit_arg c with
     | Some df => df :: omap fit_arg calls
     | None => omap fit_arg calls
     end).
  generalize (omap fit_arg calls). intros frames.
  destruct (fit_arg c) as [df|]; simpl; [|done].
  rewrite last_cons. by destruct (last frames).
Qed.

(** A history on a usable instance: the configuration is checked at most
    once, the training frame is the one of the last [fit]. *)
Lemma run_fields calls self uncertainty_dict train_df :
  usable self →
  self !! "uncertainty_dict" = Some uncertainty_dict →
  self !! "train_df" = Some train_df →
  state_after (run calls) self !! "uncertainty_dict" =
    Some (checked_config calls uncertainty_dict)
  ∧ state_after (run calls) self !! "train_df" =
    Some (default train_df (last (omap fit_arg calls))).
Proof.
  revert self uncertainty_dict train_df.
  induction calls as [|c calls IH]; intros self cfg td Hself Hud Htd.
  - unfold checked_config. simpl. by rewrite andb_false_r.
  - destruct (invoke_returns c self Hself) as [Hout Hnext].
    destruct (invoke_fields c self cfg td Hself Hud Htd) as [Hud' Htd'].
    unfold state_after, outcome_of in *. rewrite run_cons.
    destruct (invoke c self) as [o self']. simpl in *. subst o.
    destruct (IH self' _ _ Hnext Hud' Htd') as [IHud IHtd].
    by rewrite IHud, IHtd, checked_config_cons, last_fit_cons.
Qed.
End Histories.

(** X1: the base class on its own never fails and never fits.  On an
    instance constructed with plain keyword arguments none of which has
    the name of a method, every history of [_check_input], [fit] and
    [predict] calls, in any order, runs to its end without an exception,
    and afterwards [uncertainty_method], [params], [uncertainty_model]
    and [pred_df] are still [None]. *)
Theorem history_never_raises_nor_fits
    (uncertainty_dict : pyval) (kwargs : kwargs_t) (calls : list call) :
  plain kwargs →
  Forall (λ kv, kv.1 ∉ method_names) kwargs →
  (outcome_of (run calls) (new uncertainty_dict kwargs) = Returned tt)
  ∧ Forall (λ name,
        state_after (run calls) (new uncertainty_dict kwargs) !! name
        = Some PyNone)
      ["uncertainty_method"; "params"; "uncertainty_model"; "pred_df"]
  ∧ (fitted (state_after (run calls) (new uncertainty_dict kwargs)) = false).
Proof.
  intros Hplain Hkw.
  destruct (new_usable uncertainty_dict kwargs Hplain Hkw) as [_ Hus].
  assert (∀ name, name ∈ reset_names → name ≠ "train_df" →
            state_after (run calls) (new uncertainty_dict kwargs) !! name
            = Some PyNone) as Hreset.
  { intros name Hin Hne.
    rewrite run_lookup_other; [|done|].
    - unfold new. rewrite init_lookup by done. by rewrite decide_True.
    - intros ->. unfold reset_names in Hin. set_solver. }
  split_and!.
  - by apply run_returns.
  - unfold reset_names in Hreset.
    repeat constructor; apply Hreset; (done || set_solver).
  - unfold fitted. rewrite Hreset; [done| |done].
    unfold reset_names. set_solver.
Qed.

Lemma history_never_raises_nor_fits_witness :
  plain kwargs1
  ∧ Forall (λ kv, kv.1 ∉ method_names) kwargs1
  ∧ (outcome_of
       (run [Call_fit (PyFrame train1); Call_check_input;
             Call_predict (PyFrame future1)])
       (new PyNone kwargs1) = Returned tt)
  ∧ (fitted
       (state_after
          (run [Call_fit (PyFrame train1); Call_check_input;
                Call_predict (PyFrame future1)])
          (new PyNone kwargs1)) = false).
Proof.
  assert (plain kwargs1) as H0 by ordinary_name.
  assert (Forall (λ kv, kv.1 ∉ method_names) kwargs1) as H1
    by ordinary_name.
  destruct (history_never_raises_nor_fits PyNone kwargs1
              [Call_fit (PyFrame train1); Call_check_input;
               Call_predict (PyFrame future1)] H0 H1) as (Hout & _ & Hfit).
  exact (conj H0 (conj H1 (conj Hout Hfit))).
Defined.

(** X2: [train_df] follows the last [fit].  After any history of calls
    on an instance constructed with plain keyword arguments that hide no
    method, the stored training frame is the argument of the last [fit]
    call, and [None] when [fit] was not called; a keyword argument named
    [train_df] never shows. *)
Theorem history_train_df_is_last_fit
    (uncertainty_dict : pyval) (kwargs : kwargs_t) (calls : list call) :
  plain kwargs →
  Forall (λ kv, kv.1 ∉ method_names) kwargs →
  state_after (run calls) (new uncertainty_dict kwargs) !! "train_df"
  = Some (last_fit calls).
Proof.
  intros Hplain Hkw.
  destruct (new_usable uncertainty_dict kwargs Hplain Hkw) as [Hud Hus].
  assert (new uncertainty_dict kwargs !! "train_df" = Some PyNone) as Htd.
  { unfold new. rewrite init_lookup by done. rewrite decide_True; [done|].
    unfold reset_names. set_solver. }
  by destruct (run_fields calls _ _ _ Hus Hud Htd) as [_ ->].
Qed.

Lemma history_train_df_is_last_fit_witness :
  plain kwargs1
  ∧ Forall (λ kv, kv.1 ∉ method_names) kwargs1
  ∧ (state_after
       (run [Call_fit (PyFrame train1); Call_predict (PyFrame future1);
             Call_fit (PyFrame future1); Call_check_input])
       (new config1 kwargs1) !! "train_df" = Some (PyFrame future1)).
Proof.
  assert (plain kwargs1) as H0 by ordinary_name.
  assert (Forall (λ kv, kv.1 ∉ method_names) kwargs1) as H1
    by ordinary_name.
  exact (conj H0 (conj H1
    (history_train_df_is_last_fit config1 kwargs1
       [Call_fit (PyFrame train1); Call_predict (PyFrame future1);
        Call_fit (PyFrame future1); Call_check_input] H0 H1))).
Defined.

(** X3: the configuration changes at most once.  After any history of
    calls on an instance constructed with plain keyword arguments that
    hide no method, [uncertainty_dict] is the empty mapping when the
    configuration given was [None] and [_check_input] was called, and in
    every other case the configuration as it was given: [fit] and
    [predict] never touch it, and a second check changes nothing. *)
Theorem history_configuration
    (uncertainty_dict : pyval) (kwargs : kwargs_t) (calls : list call) :
  plain kwargs →
  Forall (λ kv, kv.1 ∉ method_names) kwargs →
  state_after (run calls) (new uncertainty_dict kwargs) !! "uncertainty_dict"
  = Some (checked_config calls uncertainty_dict).
Proof.
  intros Hplain Hkw.
  destruct (new_usable uncertainty_dict kwargs Hplain Hkw) as [Hud Hus].
  assert (new uncertainty_dict kwargs !! "train_df" = Some PyNone) as Htd.
  { unfold new. rewrite init_lookup by done. rewrite decide_True; [done|].
    unfold reset_names. set_solver. }
  by destruct (run_fields calls _ _ _ Hus Hud Htd) as [-> _].
Qed.

Lemma history_configuration_witness :
  plain kwargs1
  ∧ Forall (λ kv, kv.1 ∉ method_names) kwargs1
  ∧ (state_after
       (run [Call_fit (PyFrame train1); Call_check_input; Call_check_input])
       (new PyNone kwargs1) !! "uncertainty_dict" = Some (PyDict []))
  ∧ (state_after
       (run [Call_fit (PyFrame train1); Call_predict (PyFrame future1)])
       (new PyNone kwargs1) !! "uncertainty_dict" = Some PyNone).
Proof.
  assert (plain kwargs1) as H0 by ordinary_name.
  assert (Forall (λ kv, kv.1 ∉ method_names) kwargs1) as H1
    by ordinary_name.
  exact (conj H0 (conj H1 (conj
    (history_configuration PyNone kwargs1
       [Call_fit (PyFrame train1); Call_check_input; Call_check_input] H0 H1)
    (history_configuration PyNone kwargs1
       [Call_fit (PyFrame train1); Call_predict (PyFrame future1)] H0 H1)))).
Defined.

(** ** Order of calls and of keyword arguments *)

(** X4: on an instance that has its configuration, storing the training
    frame and checking the input commute: [fit] followed by
    [_check_input] ends with the same outcome and the same instance as
    [_check_input] followed by [fit]. *)
Theorem fit_check_input_commute
    (self : instance) (v train_df : pyval) :
  self !! "uncertainty_dict" = Some v →
  (fit train_df;; _check_input) self = (_check_input;; fit train_df) self.
Proof.
  intros Hv.
  assert (_check_input self =
    (Returned PyNone,
     if is_None v then <["uncertainty_dict" := PyDict []]> self else self))
    as Hcheck by (by rewrite check_input_run, Hv).
  rewrite (bind_returned _ _ _ _ _ Hcheck).
  rewrite (bind_returned _ _ _ _ _ (fit_run train_df self)).
  rewrite check_input_run, lookup_insert_ne, Hv by done.
  rewrite fit_run.
  destruct (is_None v); [|done].
  by rewrite insert_insert_ne.
Qed.

Lemma fit_check_input_commute_witness :
  (new PyNone [] !! "uncertainty_dict" = Some PyNone)
  ∧ ((fit (PyFrame train1);; _check_input) (new PyNone [])
     = (_check_input;; fit (PyFrame train1)) (new PyNone [])).
Proof.
  assert (new PyNone [] !! "uncertainty_dict" = Some PyNone) as H1
    by reflexivity.
  exact (conj H1 (fit_check_input_commute _ _ (PyFrame train1) H1)).
Defined.

(** Without the configuration attribute the two orders differ: the first
    stores the frame before the check raises, the second raises before
    anything is stored. *)
Example fit_check_input_order_on_bare_object :
  (fit (PyFrame train1);; _check_input) ∅ =
    (Raised (AttributeError "uncertainty_dict"),
     {["train_df" := PyFrame train1]})
  ∧ (_check_input;; fit (PyFrame train1)) ∅ =
    (Raised (AttributeError "uncertainty_dict"), ∅).
Proof. split; reflexivity. Qed.

Section KwargsOrder.
Implicit Types (kwargs : kwargs_t) (key : string).

(** With distinct keys the loop of [__init__] reads the keyword
    arguments as the mapping they are. *)
Lemma kwargs_get_list_to_map kwargs key :
  NoDup kwargs.*1 →
  kwargs_get kwargs key = (list_to_map kwargs : gmap string pyval) !! key.
Proof.
  induction kwargs as [|[k v] rest IH]; [done|].
  rewrite fmap_cons, NoDup_cons. intros [Hk Hrest].
  simpl. rewrite (IH Hrest), lookup_insert.
  case_decide as Heq.
  - subst key. by rewrite (not_elem_of_list_to_map_1 rest k Hk).
  - by destruct (list_to_map rest !! key).
Qed.

Lemma plain_perm kwargs kwargs' :
  kwargs ≡ₚ kwargs' → plain kwargs → plain kwargs'.
Proof. unfold plain. by intros ->. Qed.
End KwargsOrder.

(** X5: the order of plain keyword arguments does not matter.  Keyword
    arguments have distinct names, and when none of them has the name of
    a parameter or of an attribute [object] manages itself the
    constructor builds the same instance from them in any order. *)
Theorem init_kwargs_order
    (uncertainty_dict : pyval) (kwargs kwargs' : kwargs_t)
    (self : instance) :
  plain kwargs →
  NoDup kwargs.*1 →
  kwargs ≡ₚ kwargs' →
  __init__ uncertainty_dict kwargs self
  = __init__ uncertainty_dict kwargs' self.
Proof.
  intros Hplain Hnodup Hperm.
  assert (NoDup kwargs'.*1) as Hnodup' by (by rewrite <- Hperm).
  assert (plain kwargs') as Hplain' by (by apply (plain_perm kwargs)).
  rewrite (init_returns _ kwargs), (init_returns _ kwargs') by done.
  f_equal. apply map_eq. intros key. rewrite !init_lookup by done.
  rewrite (kwargs_get_list_to_map kwargs key Hnodup).
  rewrite (kwargs_get_list_to_map kwargs' key Hnodup').
  by rewrite (list_to_map_proper kwargs kwargs' Hnodup Hperm).
Qed.

Lemma init_kwargs_order_witness :
  plain kwargs1
  ∧ NoDup kwargs1.*1
  ∧ (kwargs1 ≡ₚ [("train_df", PyFrame train1); ("coverage", PyInt 95)])
  ∧ (__init__ config1 kwargs1 ∅ =
     __init__ config1
       [("train_df", PyFrame train1); ("coverage", PyInt 95)] ∅).
Proof.
  assert (plain kwargs1) as H0 by ordinary_name.
  assert (NoDup kwargs1.*1) as H1 by ordinary_name.
  assert (kwargs1 ≡ₚ [("train_df", PyFrame train1); ("coverage", PyInt 95)])
    as H2 by apply perm_swap.
  exact (conj H0 (conj H1 (conj H2
    (init_kwargs_order config1 _ _ ∅ H0 H1 H2)))).
Defined.

(** With [__dict__] among the keyword arguments the order does matter:
    what is assigned before it is lost, what is assigned after it is
    kept. *)
Example init_kwargs_order_with_dict :
  new config1 [("a", PyInt 1); ("__dict__", PyDict [])] !! "a" = None
  ∧ new config1 [("__dict__", PyDict []); ("a", PyInt 1)] !! "a"
    = Some (PyInt 1).
Proof. split; reflexivity. Qed.

(** X6: running the constructor again forgets every history.  Whatever
    calls were made on an instance, [__init__] with plain keyword
    arguments leaves it as it would have left the instance without them;
    on a constructed instance the same arguments give back the instance
    as it was constructed. *)
Theorem init_forgets_history
    (uncertainty_dict : pyval) (kwargs : kwargs_t) (calls : list call)
    (self : instance) :
  plain kwargs →
  (state_after (__init__ uncertainty_dict kwargs)
     (state_after (run calls) self)
   = state_after (__init__ uncertainty_dict kwargs) self)
  ∧ (state_after (__init__ uncertainty_dict kwargs)
       (state_after (run calls) (new uncertainty_dict kwargs))
     = new uncertainty_dict kwargs).
Proof.
  intros Hplain.
  assert (∀ self0,
    state_after (__init__ uncertainty_dict kwargs)
      (state_after (run calls) self0)
    = state_after (__init__ uncertainty_dict kwargs) self0) as Hforget.
  { intros self0. apply map_eq. intros key. rewrite !init_lookup by done.
    case_decide as Hreset; [done|].
    destruct (kwargs_get kwargs key); [done|].
    case_decide as Hud; [done|].
    apply run_lookup_other; [|done].
    intros ->. apply Hreset. unfold reset_names. set_solver. }
  split; [apply Hforget|].
  rewrite Hforget. unfold new.
  apply map_eq. intros key. rewrite !init_lookup by done.
  case_decide as Hreset; [done|].
  destruct (kwargs_get kwargs key) eqn:Hget; [done|].
  by case_decide.
Qed.

Lemma init_forgets_history_witness :
  plain kwargs1
  ∧ (state_after (__init__ config1 kwargs1)
       (state_after
          (run [Call_fit (PyFrame train1); Call_check_input])
          (new config1 kwargs1))
     = new config1 kwargs1).
Proof.
  assert (plain kwargs1) as H0 by ordinary_name.
  exact (conj H0
    (proj2 (init_forgets_history config1 kwargs1
              [Call_fit (PyFrame train1); Call_check_input] ∅ H0))).
Defined.

(** ** Keyword arguments with the name of a method *)

(** X9: a keyword argument can disable a method.  The constructor
    assigns every plain keyword argument on the instance, also one named
    [_check_input], [fit] or [predict]; the attribute then hides the
    method of the class, and calling it on the constructed instance
    raises [TypeError] and changes nothing. *)
Theorem kwarg_hides_method
    (uncertainty_dict : pyval) (kwargs : kwargs_t) (c : call) (v : pyval) :
  plain kwargs →
  kwargs_get kwargs
    (match c with
     | Call_check_input => "_check_input"
     | Call_fit _ => "fit"
     | Call_predict _ => "predict"
     end) = Some v →
  invoke c (new uncertainty_dict kwargs) =
    (Raised (TypeError "object is not callable"),
     new uncertainty_dict kwargs).
Proof.
  intros Hplain Hget.
  destruct c as [|train_df|fut_df]; simpl; unfold call_method, new;
    rewrite init_lookup, Hget by done;
    (rewrite decide_False; [done|unfold reset_names; set_solver]).
Qed.

Lemma kwarg_hides_method_witness :
  plain [("fit", PyBool true)]
  ∧ (kwargs_get [("fit", PyBool true)] "fit" = Some (PyBool true))
  ∧ (invoke (Call_fit (PyFrame train1)) (new config1 [("fit", PyBool true)])
     = (Raised (TypeError "object is not callable"),
        new config1 [("fit", PyBool true)])).
Proof.
  assert (plain [("fit", PyBool true)]) as H0 by ordinary_name.
  assert (kwargs_get [("fit", PyBool true)] "fit" = Some (PyBool true)) as H1
    by reflexivity.
  exact (conj H0 (conj H1
    (kwarg_hides_method config1 [("fit", PyBool true)]
       (Call_fit (PyFrame train1)) (PyBool true) H0 H1))).
Defined.

(** ** The metrics table of the tutorial *)

Section BacktestEval.
Context {V : Type}.
Implicit Types (train_items : list (string * V))
  (test_evaluation : gmap string V) (backtest_eval : gmap string (list V)).

Lemma append_to_new metric (v : V) backtest_eval :
  backtest_eval !! metric = None →
  append_to metric v backtest_eval = <[metric := [v]]> backtest_eval.
Proof. intros Hnone. unfold append_to. by rewrite Hnone. Qed.

Lemma append_to_again metric (v t : V) backtest_eval :
  backtest_eval !! metric = None →
  append_to metric t (append_to metric v backtest_eval)
  = <[metric := [v; t]]> backtest_eval.
Proof.
  intros Hnone. rewrite (append_to_new _ _ _ Hnone). unfold append_to.
  by rewrite lookup_insert_eq, insert_insert_eq.
Qed.

(** The loop on metrics that are new to the table and all have a test
    value: it completes and adds the pairs. *)
Lemma collect_completed train_items test_evaluation backtest_eval :
  NoDup train_items.*1 →
  Forall (λ kv, is_Some (test_evaluation !! kv.1)) train_items →
  (∀ metric, metric ∈ train_items.*1 → backtest_eval !! metric = None) →
  collect train_items test_evaluation backtest_eval
  = Completed (backtest_eval ∪ paired train_items test_evaluation).
Proof.
  revert backtest_eval.
  induction train_items as [|[metric value] rest IH];
    intros backtest_eval Hnodup Htest Hnew.
  - unfold paired. simpl. by rewrite map_zip_with_empty_l, (right_id_L ∅ (∪)).
  - rewrite fmap_cons in Hnodup. apply NoDup_cons in Hnodup as [Hhd Hnodup].
    apply Forall_cons in Htest as [[test_value Hval] Htest].
    simpl in Hval. simpl. rewrite Hval.
    rewrite append_to_again by (apply Hnew; rewrite fmap_cons; set_solver).
    rewrite IH; [|done|done|].
    + f_equal. apply map_eq. intros key. unfold paired.
      rewrite !lookup_union, !map_lookup_zip_with. simpl.
      rewrite !lookup_insert. case_decide as Hkey.
      * subst key. rewrite Hval.
        rewrite (Hnew metric) by (rewrite fmap_cons; set_solver).
        rewrite (not_elem_of_list_to_map_1 rest metric Hhd). done.
      * done.
    + intros key Hkey. rewrite lookup_insert_ne; [|by intros ->].
      apply Hnew. rewrite fmap_cons. set_solver.
Qed.

Lemma collect_app train_items rest test_evaluation backtest_eval :
  collect (train_items ++ rest) test_evaluation backtest_eval =
  match collect train_items test_evaluation backtest_eval with
  | Completed collected => collect rest test_evaluation collected
  | KeyError metric collected => KeyError metric collected
  end.
Proof.
  revert backtest_eval.
  induction train_items as [|[metric value] items IH]; intros backtest_eval;
    [done|].
  simpl. destruct (test_evaluation !! metric); [apply IH|done].
Qed.
End BacktestEval.

(** X7: the metrics loop lines up train and test values.  When the train
    metrics have distinct names and each has a test value, the loop
    completes; the table has exactly the train metrics as keys (metrics
    that only the test evaluation has are left out), every column has two
    entries, and the column of a train metric is its train value followed
    by its test value. *)
Theorem backtest_eval_completed {V : Type}
    (train_items : list (string * V)) (test_evaluation : gmap string V)
    (metric : string) (value : V) :
  NoDup train_items.*1 →
  Forall (λ kv, is_Some (test_evaluation !! kv.1)) train_items →
  (metric, value) ∈ train_items →
  (backtest_eval_of train_items test_evaluation
   = Completed (paired train_items test_evaluation))
  ∧ (dom (paired train_items test_evaluation) = list_to_set train_items.*1)
  ∧ map_Forall (λ _ column, length column = 2)
      (paired train_items test_evaluation)
  ∧ (paired train_items test_evaluation !! metric
     = (λ test_value, [value; test_value]) <$> test_evaluation !! metric)
  ∧ is_Some (paired train_items test_evaluation !! metric).
Proof.
  intros Hnodup Htest Hin.
  assert (paired train_items test_evaluation !! metric
          = (λ test_value, [value; test_value]) <$> test_evaluation !! metric)
    as Hcolumn.
  { unfold paired. rewrite map_lookup_zip_with.
    rewrite (elem_of_list_to_map_1 _ _ _ Hnodup Hin). simpl.
    by destruct (test_evaluation !! metric). }
  split_and!.
  - unfold backtest_eval_of.
    rewrite collect_completed by done. by rewrite (left_id_L ∅ (∪)).
  - unfold paired. rewrite dom_map_zip_with_L, dom_list_to_map_L.
    apply set_eq. intros key. rewrite elem_of_intersection.
    split; [by intros [? _]|]. intros Hkey. split; [done|].
    apply elem_of_list_to_set, list_elem_of_fmap in Hkey as [kv [-> Hkv]].
    apply elem_of_dom. by apply (proj1 (Forall_forall _ _) Htest).
  - intros key column. unfold paired. rewrite map_lookup_zip_with.
    destruct (list_to_map train_items !! key); simpl; [|done].
    destruct (test_evaluation !! key); simpl; [|done].
    by intros [= <-].
  - exact Hcolumn.
  - rewrite Hcolumn.
    destruct (proj1 (Forall_forall _ _) Htest _ Hin) as [t Ht].
    simpl in Ht. rewrite Ht. by eexists.
Qed.

Lemma backtest_eval_completed_witness :
  NoDup train_metrics1.*1
  ∧ Forall (λ kv, is_Some (test_metrics1 !! kv.1)) train_metrics1
  ∧ (("RMSE", 4%Z) ∈ train_metrics1)
  ∧ (backtest_eval_of train_metrics1 test_metrics1
     = Completed (paired train_metrics1 test_metrics1))
  ∧ (paired train_metrics1 test_metrics1 !! "RMSE" = Some [4; 6]%Z)
  ∧ (paired train_metrics1 test_metrics1 !! "R2" = None).
Proof.
  assert (NoDup train_metrics1.*1) as H1
    by (refine (bool_decide_unpack _ _); vm_compute; exact I).
  assert (Forall (λ kv, is_Some (test_metrics1 !! kv.1)) train_metrics1)
    as H2 by (refine (bool_decide_unpack _ _); vm_compute; exact I).
  assert (("RMSE", 4%Z) ∈ train_metrics1) as H3
    by (refine (bool_decide_unpack _ _); vm_compute; exact I).
  destruct (backtest_eval_completed train_metrics1 test_metrics1
              "RMSE" 4%Z H1 H2 H3) as (Hloop & _ & _ & Hcolumn & _).
  split_and!; [exact H1|exact H2|exact H3|exact Hloop|exact Hcolumn|].
  reflexivity.
Defined.

(** X8: a train metric without a test value stops the loop.  When the
    metrics before it all have test values and it has none, the loop
    raises the [KeyError] of that metric; by then the table holds the
    pairs of the metrics before it and, for the metric itself, a column
    with the train value alone.  The metrics after it are not reached. *)
Theorem backtest_eval_key_error {V : Type}
    (before after : list (string * V)) (metric : string) (value : V)
    (test_evaluation : gmap string V) :
  NoDup ((before ++ (metric, value) :: after)%list).*1 →
  Forall (λ kv, is_Some (test_evaluation !! kv.1)) before →
  test_evaluation !! metric = None →
  backtest_eval_of (before ++ (metric, value) :: after)%list test_evaluation
  = KeyError metric (<[metric := [value]]> (paired before test_evaluation)).
Proof.
  intros Hnodup Htest Hnone.
  rewrite fmap_app in Hnodup. apply NoDup_app in Hnodup as (Hbefore & _ & _).
  unfold backtest_eval_of. rewrite collect_app.
  rewrite collect_completed by done. rewrite (left_id_L ∅ (∪)).
  simpl. rewrite Hnone. f_equal. apply append_to_new.
  unfold paired. rewrite map_lookup_zip_with, Hnone.
  by destruct (list_to_map before !! metric).
Qed.

Lemma backtest_eval_key_error_witness :
  NoDup (([("MAE", 3%Z)] ++ ("MAPE", 7%Z) :: [("RMSE", 4%Z)])%list).*1
  ∧ Forall (λ kv, is_Some (test_metrics1 !! kv.1)) [("MAE", 3%Z)]
  ∧ (test_metrics1 !! "MAPE" = None)
  ∧ (backtest_eval_of
       ([("MAE", 3%Z)] ++ ("MAPE", 7%Z) :: [("RMSE", 4%Z)])%list
       test_metrics1
     = KeyError "MAPE" {["MAE" := [3; 5]%Z; "MAPE" := [7%Z]]}).
Proof.
  assert (NoDup (([("MAE", 3%Z)] ++ ("MAPE", 7%Z) :: [("RMSE", 4%Z)])%list).*1)
    as H1 by (refine (bool_decide_unpack _ _); vm_compute; exact I).
  assert (Forall (λ kv, is_Some (test_metrics1 !! kv.1)) [("MAE", 3%Z)])
    as H2 by (refine (bool_decide_unpack _ _); vm_compute; exact I).
  assert (test_metrics1 !! "MAPE" = None) as H3 by reflexivity.
  split_and!; [exact H1|exact H2|exact H3|].
  rewrite (backtest_eval_key_error [("MAE", 3%Z)] [("RMSE", 4%Z)]
             "MAPE" 7%Z test_metrics1 H1 H2 H3).
  reflexivity.
Defined.
